(** * Longitudinal vehicle model: a shallow embedding of [Vehicle]

    Source: Introduction_to_self_driving_cars/Longitudinal_Vehicle_Model.ipynb,
    class [Vehicle] ([__init__], [reset], [step]) and the constant-throttle
    driving loop of the notebook.

    The Python code is duck-typed over its numbers, so the class is embedded
    once, over an interface [PyNum] of the arithmetic the code performs, and
    read at two number systems:

    - [pyfloat]: IEEE 754 binary64 values tagged with the kind of scalar that
      carries them (a Python [int]/[float] or a [numpy.float64]).  This is
      what the interpreter runs; it is executable, so runs of the model are
      evaluated by the kernel.
    - [R]: exact real arithmetic, in which the algebraic laws of the update
      are stated; division by zero is undefined there and reported as
      [ZeroDivisionError].

    Python mutates [self] in place and may raise in the middle of [step];
    the embedding passes the object explicitly and returns it together with
    the outcome of the call, so the fields written before an exception stay
    written. *)

From Stdlib Require Import ZArith QArith Qabs List Bool Lia.
From Stdlib Require Import Floats.
From Stdlib Require Import Reals Lra Psatz.
Import ListNotations.

Set Warnings "-inexact-float,-abstract-large-number".

(** ** Outcomes of a call *)

Inductive exn : Type :=
| ZeroDivisionError
| OverflowError.

Inductive result (A : Type) : Type :=
| Ok (val : A)
| Raise (e : exn).

Arguments Ok {A} val.
Arguments Raise {A} e.

Definition is_ok {A : Type} (r : result A) : bool :=
  match r with Ok _ => true | Raise _ => false end.

(** ** The arithmetic the code uses *)

Class PyNum (T : Type) : Type := {
  (** a numeric literal of the source text, [400] or [0.1] *)
  py_lit : Q -> T;
  py_add : T -> T -> T;
  py_sub : T -> T -> T;
  py_mul : T -> T -> T;
  (** [a / b] *)
  py_div : T -> T -> result T;
  (** [a ** 2] *)
  py_pow2 : T -> result T;
  (** [abs(a)] *)
  py_abs : T -> T;
  (** [a < b] *)
  py_lt : T -> T -> bool;
  (** [np.sin(a)] *)
  np_sin : T -> T
}.

Declare Scope py_scope.
Delimit Scope py_scope with py.
Notation "a + b" := (py_add a b) : py_scope.
Notation "a - b" := (py_sub a b) : py_scope.
Notation "a * b" := (py_mul a b) : py_scope.
Notation "a / b" := (py_div a b) : py_scope.
Notation "a <? b" := (py_lt a b) : py_scope.
Notation "a '**2'" := (py_pow2 a) (at level 1, format "a '**2'") : py_scope.

(** [let? y := e on self in k]: evaluate [e]; if it raises, the call ends
    there with the object as it is at that point. *)
Notation "'let?' y ':=' e 'on' self 'in' k" :=
  (match e with
   | Ok y => k
   | Raise err => (self, Raise err)
   end)
  (at level 10, y name, e at level 100, self at level 0, k at level 200,
   only parsing).

(** ** The class *)

Module Vehicle.

(** The attributes of a [Vehicle] object, in the order [__init__] sets them. *)
Record t (T : Type) : Type := mk {
  a_0 : T; a_1 : T; a_2 : T;
  GR : T; r_e : T; J_e : T; m : T; g : T;
  c_a : T; c_r1 : T;
  c : T; F_max : T;
  x : T; v : T; a : T; w_e : T; w_e_dot : T;
  sample_time : T
}.

Arguments mk {T}.
Arguments a_0 {T}. Arguments a_1 {T}. Arguments a_2 {T}.
Arguments GR {T}. Arguments r_e {T}. Arguments J_e {T}.
Arguments m {T}. Arguments g {T}.
Arguments c_a {T}. Arguments c_r1 {T}.
Arguments c {T}. Arguments F_max {T}.
Arguments x {T}. Arguments v {T}. Arguments a {T}.
Arguments w_e {T}. Arguments w_e_dot {T}.
Arguments sample_time {T}.

(** The local variables of one [step] call. [F_areo] is the source's
    spelling. *)
Record locals (T : Type) : Type := mk_locals {
  T_e : T; F_areo : T; R_x : T; F_g : T; F_load : T;
  w_w : T; s : T; F_x : T
}.

Arguments mk_locals {T}.
Arguments T_e {T}. Arguments F_areo {T}. Arguments R_x {T}.
Arguments F_g {T}. Arguments F_load {T}.
Arguments w_w {T}. Arguments s {T}. Arguments F_x {T}.

(** Two objects agree on every parameter attribute, that is on every
    attribute but the five state variables [x], [v], [a], [w_e], [w_e_dot]. *)
Definition same_parameters {T : Type} (s1 s2 : t T) : Prop :=
  a_0 s1 = a_0 s2 /\ a_1 s1 = a_1 s2 /\ a_2 s1 = a_2 s2 /\
  GR s1 = GR s2 /\ r_e s1 = r_e s2 /\ J_e s1 = J_e s2 /\
  m s1 = m s2 /\ g s1 = g s2 /\
  c_a s1 = c_a s2 /\ c_r1 s1 = c_r1 s2 /\
  c s1 = c s2 /\ F_max s1 = F_max s2 /\
  sample_time s1 = sample_time s2.

Section Methods.
Context {T : Type} `{PyNum T}.
Local Open Scope py_scope.

(** Attribute assignment [self.f = val], for the five attributes the
    methods assign. *)
Definition set_x (self : t T) (val : T) : t T :=
  mk (a_0 self) (a_1 self) (a_2 self) (GR self) (r_e self) (J_e self)
     (m self) (g self) (c_a self) (c_r1 self) (c self) (F_max self)
     val (v self) (a self) (w_e self) (w_e_dot self) (sample_time self).

Definition set_v (self : t T) (val : T) : t T :=
  mk (a_0 self) (a_1 self) (a_2 self) (GR self) (r_e self) (J_e self)
     (m self) (g self) (c_a self) (c_r1 self) (c self) (F_max self)
     (x self) val (a self) (w_e self) (w_e_dot self) (sample_time self).

Definition set_a (self : t T) (val : T) : t T :=
  mk (a_0 self) (a_1 self) (a_2 self) (GR self) (r_e self) (J_e self)
     (m self) (g self) (c_a self) (c_r1 self) (c self) (F_max self)
     (x self) (v self) val (w_e self) (w_e_dot self) (sample_time self).

Definition set_w_e (self : t T) (val : T) : t T :=
  mk (a_0 self) (a_1 self) (a_2 self) (GR self) (r_e self) (J_e self)
     (m self) (g self) (c_a self) (c_r1 self) (c self) (F_max self)
     (x self) (v self) (a self) val (w_e_dot self) (sample_time self).

Definition set_w_e_dot (self : t T) (val : T) : t T :=
  mk (a_0 self) (a_1 self) (a_2 self) (GR self) (r_e self) (J_e self)
     (m self) (g self) (c_a self) (c_r1 self) (c self) (F_max self)
     (x self) (v self) (a self) (w_e self) val (sample_time self).

(** [Vehicle.__init__] *)
Definition __init__ : t T :=
  {| a_0 := py_lit 400;
     a_1 := py_lit 0.1;
     a_2 := py_lit (-0.0002);
     GR := py_lit 0.35;
     r_e := py_lit 0.3;
     J_e := py_lit 10;
     m := py_lit 2000;
     g := py_lit 9.81;
     c_a := py_lit 1.36;
     c_r1 := py_lit 0.01;
     c := py_lit 10000;
     F_max := py_lit 10000;
     x := py_lit 0;
     v := py_lit 5;
     a := py_lit 0;
     w_e := py_lit 100;
     w_e_dot := py_lit 0;
     sample_time := py_lit 0.01 |}.

(** [Vehicle.reset] *)
Definition reset (self : t T) : t T :=
  let self := set_x self (py_lit 0) in
  let self := set_v self (py_lit 5) in
  let self := set_a self (py_lit 0) in
  let self := set_w_e self (py_lit 100) in
  let self := set_w_e_dot self (py_lit 0) in
  self.

(** The body of [Vehicle.step], statement by statement.  It returns the
    object after the call and, when no statement raised, the values its
    local variables ended with. *)
Definition step_locals (self : t T) (throttle alpha : T)
  : t T * result (locals T) :=
  let? w_e_sq := (w_e self)**2 on self in
  let T_e := throttle * (a_0 self + a_1 self * w_e self + a_2 self * w_e_sq) in
  let? v_sq := (v self)**2 on self in
  let F_areo := c_a self * v_sq in
  let R_x := c_r1 self * v self in
  let F_g := m self * g self * np_sin alpha in
  let F_load := F_areo + R_x + F_g in
  (* torque equation (angular acceleration) *)
  let? q := (T_e - GR self * r_e self * F_load) / J_e self on self in
  let self := set_w_e_dot self q in
  let w_w := GR self * w_e self in
  let? s := (w_w * r_e self - v self) / v self on self in
  let F_x := if py_abs s <? py_lit 1 then c self * s else F_max self in
  (* force equation (acceleration) *)
  let? q := (F_x - F_load) / m self on self in
  let self := set_a self q in
  (* update equations *)
  let self := set_w_e self (w_e self + w_e_dot self * sample_time self) in
  let self := set_v self (v self + a self * sample_time self) in
  let? dt_sq := (sample_time self)**2 on self in
  let self :=
    set_x self
      (x self + (v self * sample_time self - py_lit 0.5 * a self * dt_sq)) in
  (self, Ok (mk_locals T_e F_areo R_x F_g F_load w_w s F_x)).

(** [Vehicle.step]: the call returns [None]. *)
Definition step (self : t T) (throttle alpha : T) : t T * result unit :=
  let (self, r) := step_locals self throttle alpha in
  (self, match r with Ok _ => Ok tt | Raise e => Raise e end).

(** The constant-throttle cell of the notebook:
    [for i in range(n): v_data[i] = model.v; model.step(throttle, alpha)].
    Returns the model after the loop and the recorded [v_data]. *)
Fixpoint drive (n : nat) (model : t T) (throttle alpha : T)
  : t T * result (list T) :=
  match n with
  | O => (model, Ok [])
  | S n' =>
      let v_i := v model in
      match step model throttle alpha with
      | (model', Ok _) =>
          match drive n' model' throttle alpha with
          | (model'', Ok v_data) => (model'', Ok (v_i :: v_data))
          | (model'', Raise e) => (model'', Raise e)
          end
      | (model', Raise e) => (model', Raise e)
      end
  end.

(** A caller that issues one [step] call per input pair, going on after
    a call that raised. *)
Definition steps (self : t T) (inputs : list (T * T)) : t T :=
  fold_left (fun self i => fst (step self (fst i) (snd i))) inputs self.

End Methods.

End Vehicle.

(** ** Binary64 scalars, as CPython and NumPy carry them *)

(** A Python scalar ([int] or [float]) or a [numpy.float64].  The two obey
    the same IEEE 754 arithmetic and differ in what they do at a zero
    divisor and at an overflowing power: Python raises, NumPy returns the
    IEEE value (and emits a warning, which is not an exception). *)
Inductive kind : Type :=
| PyScalar
| NpScalar.

(** A scalar is its kind and its binary64 value.  Integers of the source are
    carried by the binary64 value they convert to, which is exact for every
    integer literal of the notebook; integers that binary64 cannot hold are
    outside the model. *)
Record pyfloat : Type := mk_pyfloat {
  kind_of : kind;
  val : float
}.

(** The result of a mixed operation is a NumPy scalar as soon as one operand
    is ([numpy.float64] takes precedence over the Python types). *)
Definition kind_join (k1 k2 : kind) : kind :=
  match k1, k2 with
  | PyScalar, PyScalar => PyScalar
  | _, _ => NpScalar
  end.

(** Conversion of an integer below [2^63] in absolute value. *)
Definition float_of_Z (z : Z) : float :=
  match z with
  | Z0 => PrimFloat.zero
  | Zpos _ => PrimFloat.of_uint63 (Uint63.of_Z z)
  | Zneg p => PrimFloat.opp (PrimFloat.of_uint63 (Uint63.of_Z (Zpos p)))
  end.

(** A decimal literal [n / 10^k] denotes the binary64 value nearest to it;
    with [n] and [10^k] exactly representable that is their quotient, rounded
    once. *)
Definition float_of_Q (q : Q) : float :=
  PrimFloat.div (float_of_Z (Qnum q)) (float_of_Z (Zpos (Qden q))).

Definition pyfloat_binop (op : float -> float -> float) (a b : pyfloat) : pyfloat :=
  mk_pyfloat (kind_join (kind_of a) (kind_of b)) (op (val a) (val b)).

(** [float.__truediv__] raises on a zero divisor; [numpy.float64] division
    returns the IEEE quotient (an infinity or a NaN). *)
Definition pyfloat_div (a b : pyfloat) : result pyfloat :=
  match kind_join (kind_of a) (kind_of b) with
  | PyScalar =>
      if PrimFloat.is_zero (val b) then Raise ZeroDivisionError
      else Ok (mk_pyfloat PyScalar (PrimFloat.div (val a) (val b)))
  | NpScalar => Ok (mk_pyfloat NpScalar (PrimFloat.div (val a) (val b)))
  end.

(** [a ** 2], taken as the correctly rounded square.  A Python scalar raises
    [OverflowError] when the square of a finite value is not finite. *)
Definition pyfloat_pow2 (a : pyfloat) : result pyfloat :=
  let sq := PrimFloat.mul (val a) (val a) in
  match kind_of a with
  | PyScalar =>
      if PrimFloat.is_finite (val a) && PrimFloat.is_infinity sq
      then Raise OverflowError
      else Ok (mk_pyfloat PyScalar sq)
  | NpScalar => Ok (mk_pyfloat NpScalar sq)
  end.

Section Binary64.

(** The sine of the C library behind [np.sin], which is not part of the
    repository. *)
Variable libm_sin : float -> float.

(** [np.sin] returns a [numpy.float64] for every scalar argument; at a zero
    it returns its argument (IEEE 754, C Annex F), elsewhere what the C
    library computes. *)
Definition pyfloat_sin (a : pyfloat) : pyfloat :=
  mk_pyfloat NpScalar
    (if PrimFloat.is_zero (val a) then val a else libm_sin (val a)).

Definition pyfloat_num : PyNum pyfloat := {|
  py_lit := fun q => mk_pyfloat PyScalar (float_of_Q q);
  py_add := pyfloat_binop PrimFloat.add;
  py_sub := pyfloat_binop PrimFloat.sub;
  py_mul := pyfloat_binop PrimFloat.mul;
  py_div := pyfloat_div;
  py_pow2 := pyfloat_pow2;
  py_abs := fun a => mk_pyfloat (kind_of a) (PrimFloat.abs (val a));
  py_lt := fun a b => PrimFloat.ltb (val a) (val b);
  np_sin := pyfloat_sin
|}.

End Binary64.

(** A C library that is never consulted: it stands for [libm_sin] in closed
    statements, all of which call [np.sin] at zero only. *)
Definition libm_absent : float -> float := fun _ => PrimFloat.nan.

(** The exact rational value of a finite binary64 number. *)
Definition Q_of_float (f : float) : option Q :=
  match Prim2SF f with
  | S754_zero _ => Some 0%Q
  | S754_finite sign mant e =>
      Some (inject_Z (if sign then Zneg mant else Zpos mant) * Qpower 2 e)%Q
  | S754_infinity _ | S754_nan => None
  end.

(** [agrees a d tol]: [a] is finite and its exact value lies within [tol] of
    the decimal [d]. *)
Definition agrees (a : pyfloat) (d tol : Q) : bool :=
  match Q_of_float (val a) with
  | Some q => Qle_bool (Qabs (q - d)) tol
  | None => false
  end.



(** The stabilisation test the specification runs on the recorded
    velocities, [abs(v_data[n] - v_data[n-1]) < 1e-4], in binary64
    arithmetic. *)
Definition settled (v_prev v_n : pyfloat) : bool :=
  PrimFloat.ltb (PrimFloat.abs (PrimFloat.sub (val v_n) (val v_prev)))
                (float_of_Q 1e-4).

(** [settled] holds between every two consecutive elements of the list,
    starting with [v_prev]. *)
Fixpoint all_settled (v_prev : pyfloat) (v_data : list pyfloat) : bool :=
  match v_data with
  | [] => true
  | v_n :: rest => settled v_prev v_n && all_settled v_n rest
  end.

(** [settled] holds between every two consecutive elements of the list from
    index [k] on. *)
Definition settled_from (k : nat) (v_data : list pyfloat) : bool :=
  match skipn k v_data with
  | v_k :: rest => all_settled v_k rest
  | [] => false
  end.

(** ** Exact real arithmetic *)

Definition Rltb (a b : R) : bool := if Rlt_dec a b then true else false.

(** Division is undefined at a zero divisor. *)
Definition R_div (a b : R) : result R :=
  if Req_dec_T b 0 then Raise ZeroDivisionError else Ok (a / b)%R.

#[export] Instance R_num : PyNum R := {|
  py_lit := Q2R;
  py_add := Rplus;
  py_sub := Rminus;
  py_mul := Rmult;
  py_div := R_div;
  py_pow2 := fun a => Ok (a * a)%R;
  py_abs := Rabs;
  py_lt := Rltb;
  np_sin := sin
|}.

(** ** The ramp cell of the notebook *)

(** What the ramp cell uses of NumPy besides the arithmetic. *)
Class NumPy (T : Type) : Type := {
  (** [np.arctan(a)] *)
  np_arctan : T -> T;
  (** the element read back from a [float64] array after [arr[i] = a] *)
  np_item : T -> T
}.

(** One iteration's inputs and the three values the cell records after the
    call. *)
Record row (T : Type) : Type := mk_row {
  row_throttle : T; row_alpha : T;
  row_x : T; row_v : T; row_w_e : T
}.

Arguments mk_row {T}.
Arguments row_throttle {T}. Arguments row_alpha {T}.
Arguments row_x {T}. Arguments row_v {T}. Arguments row_w_e {T}.

Section RampCell.
Context {T : Type} `{PyNum T} `{NumPy T}.
Local Open Scope py_scope.

(** [t_data[i]] for [t_data = np.arange(0, time_end, sample_time)] with the
    notebook's [sample_time = 0.01]: [np.arange] stores [start] and
    [start + step], and fills the rest as [start + i * delta] with [delta]
    the difference of the two stored values. *)
Definition t_data (i : nat) : T :=
  let start := py_lit 0 in
  let next := start + py_lit 0.01 in
  match i with
  | O => np_item start
  | S O => np_item next
  | _ => np_item (start + py_lit (inject_Z (Z.of_nat i)) * (next - start))
  end.

(** The value the loop assigns to [throttle[i]], from [t_data[i]]. *)
Definition throttle_at (t_i : T) : result T :=
  if t_i <? py_lit 5 then
    match (py_lit 0.5 - py_lit 0.2) / py_lit 5 with
    | Ok q => Ok (py_lit 0.2 + q * t_i)
    | Raise e => Raise e
    end
  else if t_i <? py_lit 15 then
    Ok (py_lit 0.5)
  else
    match (py_lit 0 - py_lit 0.5) / (py_lit 20 - py_lit 15) with
    | Ok q => Ok (q * (t_i - py_lit 20))
    | Raise e => Raise e
    end.

(** [angle(i, alpha, x)]: the value it assigns to [alpha[i]]. *)
Definition angle (x : T) : result T :=
  if x <? py_lit 60 then
    match py_lit 3 / py_lit 60 with
    | Ok q => Ok (np_arctan q)
    | Raise e => Raise e
    end
  else if x <? py_lit 150 then
    match py_lit 9 / py_lit 90 with
    | Ok q => Ok (np_arctan q)
    | Raise e => Raise e
    end
  else
    Ok (py_lit 0).

(** The loop of the ramp cell from iteration [i] on, for [n] iterations:
    [throttle[i]] and [alpha[i]] are assigned, read back and passed to
    [step], and [model.x], [model.v], [model.w_e] are recorded. *)
Fixpoint ramp_loop (n i : nat) (model : Vehicle.t T)
  : Vehicle.t T * result (list (row T)) :=
  match n with
  | O => (model, Ok [])
  | S n' =>
      match throttle_at (t_data i) with
      | Raise e => (model, Raise e)
      | Ok th =>
          match angle (Vehicle.x model) with
          | Raise e => (model, Raise e)
          | Ok al =>
              let th_i := np_item th in
              let al_i := np_item al in
              match Vehicle.step model th_i al_i with
              | (model', Raise e) => (model', Raise e)
              | (model', Ok _) =>
                  let r :=
                    mk_row th_i al_i (np_item (Vehicle.x model'))
                      (np_item (Vehicle.v model'))
                      (np_item (Vehicle.w_e model')) in
                  match ramp_loop n' (S i) model' with
                  | (model'', Ok rows) => (model'', Ok (r :: rows))
                  | (model'', Raise e) => (model'', Raise e)
                  end
              end
          end
      end
  end.

(** The ramp cell: [model.reset()], then the loop over [t_data]. *)
Definition ramp_cell (n : nat) (model : Vehicle.t T)
  : Vehicle.t T * result (list (row T)) :=
  ramp_loop n 0 (Vehicle.reset model).

End RampCell.

(** [np.arctan] goes to the C library; an array element is a
    [numpy.float64] of the value stored. *)
Definition pyfloat_numpy (libm_atan : float -> float) : NumPy pyfloat := {|
  np_arctan := fun a => mk_pyfloat NpScalar (libm_atan (val a));
  np_item := fun a => mk_pyfloat NpScalar (val a)
|}.

#[export] Instance R_numpy : NumPy R := {|
  np_arctan := atan;
  np_item := fun a => a
|}.

(** * Properties *)

Import Vehicle.

(** ** Laws that hold at every number system *)

Section Generic.
Context {T : Type} `{PyNum T}.
Local Open Scope py_scope.

(** Case analysis on every operation of [step] that may raise. *)
Ltac step_cases :=
  repeat match goal with
         | |- context [match ?e with Ok _ => _ | Raise _ => _ end] =>
             destruct e; cbn [fst snd]
         end.

Lemma same_parameters_refl (self : t T) : same_parameters self self.
Proof. unfold same_parameters; repeat split. Qed.

Lemma same_parameters_sym (s1 s2 : t T) :
  same_parameters s1 s2 -> same_parameters s2 s1.
Proof.
  unfold same_parameters; intros H12.
  decompose [and] H12; repeat split; congruence.
Qed.

Lemma same_parameters_trans (s1 s2 s3 : t T) :
  same_parameters s1 s2 -> same_parameters s2 s3 -> same_parameters s1 s3.
Proof.
  unfold same_parameters; intros H12 H23.
  decompose [and] H12; decompose [and] H23; repeat split; congruence.
Qed.

Lemma step_locals_parameters (self : t T) (throttle alpha : T) :
  same_parameters self (fst (step_locals self throttle alpha)).
Proof.
  unfold step_locals; step_cases; unfold same_parameters; cbn; repeat split.
Qed.

Lemma step_fst (self : t T) (throttle alpha : T) :
  fst (step self throttle alpha) = fst (step_locals self throttle alpha).
Proof. unfold step; destruct (step_locals self throttle alpha); reflexivity. Qed.

Lemma step_parameters (self : t T) (throttle alpha : T) :
  same_parameters self (fst (step self throttle alpha)).
Proof. rewrite step_fst; apply step_locals_parameters. Qed.

Lemma steps_parameters (inputs : list (T * T)) (self : t T) :
  same_parameters self (steps self inputs).
Proof.
  revert self; induction inputs as [|i inputs IH]; intros self; cbn.
  - apply same_parameters_refl.
  - eapply same_parameters_trans; [apply step_parameters | apply IH].
Qed.

Lemma reset_parameters (self : t T) : same_parameters self (reset self).
Proof. unfold same_parameters, reset; cbn; repeat split. Qed.

(** What a call that returned normally has computed and stored. *)
Lemma step_locals_Ok (self self' : t T) (throttle alpha : T) (l : locals T) :
  step_locals self throttle alpha = (self', Ok l) ->
  exists w_e_sq v_sq wd sl acc dt_sq,
    (w_e self)**2 = Ok w_e_sq /\ (v self)**2 = Ok v_sq /\
    (sample_time self)**2 = Ok dt_sq /\
    (T_e l - GR self * r_e self * F_load l) / J_e self = Ok wd /\
    (w_w l * r_e self - v self) / v self = Ok sl /\
    (F_x l - F_load l) / m self = Ok acc /\
    T_e l = throttle * (a_0 self + a_1 self * w_e self + a_2 self * w_e_sq) /\
    F_areo l = c_a self * v_sq /\
    R_x l = c_r1 self * v self /\
    F_g l = m self * g self * np_sin alpha /\
    F_load l = F_areo l + R_x l + F_g l /\
    w_w l = GR self * w_e self /\
    s l = sl /\
    F_x l = (if py_abs sl <? py_lit 1 then c self * sl else F_max self) /\
    w_e_dot self' = wd /\
    a self' = acc /\
    w_e self' = w_e self + wd * sample_time self /\
    v self' = v self + acc * sample_time self /\
    x self' = x self + (v self' * sample_time self - py_lit 0.5 * acc * dt_sq).
Proof.
  unfold step_locals.
  destruct ((w_e self)**2) as [w_e_sq|] eqn:Ew; [|discriminate].
  destruct ((v self)**2) as [v_sq|] eqn:Ev; [|discriminate].
  cbn [w_e v set_w_e_dot GR r_e J_e m c F_max sample_time set_a a w_e_dot
       set_w_e set_v x set_x].
  match goal with
  | |- context [match ?e with Ok _ => _ | Raise _ => _ end] =>
      destruct e as [wd|] eqn:Ewd; [|discriminate]
  end.
  match goal with
  | |- context [match ?e with Ok _ => _ | Raise _ => _ end] =>
      destruct e as [sl|] eqn:Es; [|discriminate]
  end.
  match goal with
  | |- context [match ?e with Ok _ => _ | Raise _ => _ end] =>
      destruct e as [acc|] eqn:Ea; [|discriminate]
  end.
  destruct ((sample_time self)**2) as [dt_sq|] eqn:Edt; [|discriminate].
  intros E; injection E as <- <-; cbn.
  exists w_e_sq, v_sq, wd, sl, acc, dt_sq.
  repeat split; assumption.
Qed.


Lemma drive_parameters (n : nat) (model : t T) (throttle alpha : T) :
  same_parameters model (fst (drive n model throttle alpha)).
Proof.
  revert model; induction n as [|n IH]; intros model; cbn.
  - apply same_parameters_refl.
  - pose proof (step_parameters model throttle alpha) as Hs.
    destruct (step model throttle alpha) as [model' [u|e]]; cbn in *;
      [|exact Hs].
    specialize (IH model').
    destruct (drive n model' throttle alpha) as [model'' [v_data|e]];
      cbn in *; eapply same_parameters_trans; eassumption.
Qed.

(** C9. Whatever the object and the inputs, and whether the call returns or
    raises, [step] leaves the thirteen parameter attributes as they were:
    only [x], [v], [a], [w_e] and [w_e_dot] may differ afterwards.  The same
    holds along any sequence of calls and along the driving loop, so from
    construction on [sample_time] is the literal [0.01]. *)
Theorem step_frame (self : t T) (throttle alpha : T) :
  same_parameters self (fst (step self throttle alpha)) /\
  (forall inputs, same_parameters self (steps self inputs)) /\
  (forall n, same_parameters self (fst (drive n self throttle alpha))) /\
  (forall inputs, sample_time (steps __init__ inputs) = py_lit 0.01) /\
  (forall n, sample_time (fst (drive n __init__ throttle alpha)) = py_lit 0.01).
Proof.
  split; [apply step_parameters|].
  split; [intros; apply steps_parameters|].
  split; [intros; apply drive_parameters|].
  split.
  - intros inputs.
    destruct (steps_parameters inputs __init__) as
      (_ & _ & _ & _ & _ & _ & _ & _ & _ & _ & _ & _ & Hdt).
    symmetry; exact Hdt.
  - intros n.
    destruct (drive_parameters n __init__ throttle alpha) as
      (_ & _ & _ & _ & _ & _ & _ & _ & _ & _ & _ & _ & Hdt).
    symmetry; exact Hdt.
Qed.

(** C6. After any sequence of [step] calls, of any length and with any
    inputs, [reset] puts [0], [5], [0], [100], [0] into [x], [v], [a], [w_e],
    [w_e_dot] and leaves every parameter attribute as it was before the
    calls; on an object built by [__init__] the result is that object
    again. *)
Theorem reset_restores_initial_state (self : t T) (inputs : list (T * T)) :
  let self' := reset (steps self inputs) in
  x self' = py_lit 0 /\ v self' = py_lit 5 /\ a self' = py_lit 0 /\
  w_e self' = py_lit 100 /\ w_e_dot self' = py_lit 0 /\
  same_parameters self self' /\
  reset (steps __init__ inputs) = __init__.
Proof.
  cbn zeta.
  repeat (split; [reflexivity|]).
  split.
  - eapply same_parameters_trans;
      [apply steps_parameters | apply reset_parameters].
  - pose proof (steps_parameters inputs __init__) as Hp.
    destruct (steps __init__ inputs) as
      [p1 p2 p3 p4 p5 p6 p7 p8 p9 p10 p11 p12 x0 v0 acc0 w0 wd0 dt0].
    unfold same_parameters in Hp; cbn in Hp.
    decompose [and] Hp; subst.
    reflexivity.
Qed.

(** C3. A call that returns has applied the Euler update in the order
    [w_e], [v], [x]: the new [w_e] uses the [w_e_dot] stored by this call,
    the new [v] uses the [a] stored by this call, and the increment of [x] is
    computed from the new [v], the one the call leaves in the object. *)
Theorem step_update_order (self self' : t T) (throttle alpha : T) :
  step self throttle alpha = (self', Ok tt) ->
  exists dt_sq,
    (sample_time self)**2 = Ok dt_sq /\
    w_e self' = w_e self + w_e_dot self' * sample_time self /\
    v self' = v self + a self' * sample_time self /\
    x self' =
      x self + (v self' * sample_time self - py_lit 0.5 * a self' * dt_sq).
Proof.
  unfold step.
  destruct (step_locals self throttle alpha) as [s1 [l|e]] eqn:E;
    [|discriminate].
  intros E'; injection E' as <-.
  destruct (step_locals_Ok _ _ _ _ _ E) as
    (w_e_sq & v_sq & wd & sl & acc & dt_sq & _ & _ & Hdt & _ & _ & _ & _ & _
     & _ & _ & _ & _ & _ & _ & Hwd & Ha & Hw & Hv & Hx).
  exists dt_sq; subst wd acc; repeat split; assumption.
Qed.

End Generic.

(** The update order at the first call of the constant-throttle run. *)
Lemma step_update_order_witness :
  let num := pyfloat_num libm_absent in
  let self := @__init__ pyfloat num in
  let self' := fst (step self (py_lit 0.4) (py_lit 0)) in
  step self (py_lit 0.4) (py_lit 0) = (self', Ok tt) /\
  exists dt_sq,
    py_pow2 (sample_time self) = Ok dt_sq /\
    w_e self' = py_add (w_e self) (py_mul (w_e_dot self') (sample_time self)) /\
    v self' = py_add (v self) (py_mul (a self') (sample_time self)) /\
    x self' =
      py_add (x self)
        (py_sub (py_mul (v self') (sample_time self))
           (py_mul (py_mul (py_lit 0.5) (a self')) dt_sq)).
Proof.
  intros num self self'.
  assert (Hstep : step self (py_lit 0.4) (py_lit 0) = (self', Ok tt))
    by (vm_compute; reflexivity).
  split; [exact Hstep|].
  exact (step_update_order self self' (py_lit 0.4) (py_lit 0) Hstep).
Defined.

(** ** Laws of the update in exact arithmetic *)

Section Exact.
Local Open Scope R_scope.

Lemma Q2R_0 : Q2R 0 = 0.
Proof. unfold Q2R; cbn; lra. Qed.

Lemma Q2R_1 : Q2R 1 = 1.
Proof. unfold Q2R; cbn; lra. Qed.

Lemma Q2R_half : Q2R 0.5 = / 2.
Proof. unfold Q2R; cbn; lra. Qed.

Lemma Rltb_true (a b : R) : a < b -> Rltb a b = true.
Proof. unfold Rltb; destruct (Rlt_dec a b); [reflexivity | contradiction]. Qed.

Lemma Rltb_false (a b : R) : ~ a < b -> Rltb a b = false.
Proof. unfold Rltb; destruct (Rlt_dec a b); [contradiction | reflexivity]. Qed.

Lemma R_div_defined (a b : R) : b <> 0 -> R_div a b = Ok (a / b).
Proof. unfold R_div; destruct (Req_dec_T b 0); [contradiction | reflexivity]. Qed.

Lemma R_div_undefined (a : R) : R_div a 0 = Raise ZeroDivisionError.
Proof. unfold R_div; destruct (Req_dec_T 0 0); [reflexivity | congruence]. Qed.

(** One call, wherever the three divisors are not zero. *)
Lemma R_step_locals (self : t R) (throttle alpha : R) :
  v self <> 0 -> J_e self <> 0 -> m self <> 0 ->
  let dt := sample_time self in
  let T_e :=
    throttle * (a_0 self + a_1 self * w_e self + a_2 self * (w_e self * w_e self)) in
  let F_areo := c_a self * (v self * v self) in
  let R_x := c_r1 self * v self in
  let F_g := m self * g self * sin alpha in
  let F_load := F_areo + R_x + F_g in
  let wd := (T_e - GR self * r_e self * F_load) / J_e self in
  let w_w := GR self * w_e self in
  let sl := (w_w * r_e self - v self) / v self in
  let F_x := if Rltb (Rabs sl) 1 then c self * sl else F_max self in
  let acc := (F_x - F_load) / m self in
  let v' := v self + acc * dt in
  step_locals self throttle alpha =
    (mk (a_0 self) (a_1 self) (a_2 self) (GR self) (r_e self) (J_e self)
        (m self) (g self) (c_a self) (c_r1 self) (c self) (F_max self)
        (x self + (v' * dt - / 2 * acc * (dt * dt)))
        v' acc (w_e self + wd * dt) wd dt,
     Ok (mk_locals T_e F_areo R_x F_g F_load w_w sl F_x)).
Proof.
  intros Hv HJ Hm; cbn zeta.
  unfold step_locals.
  cbn [py_pow2 py_div py_mul py_add py_sub py_abs py_lt py_lit np_sin R_num
       w_e v set_w_e_dot GR r_e J_e m c F_max sample_time set_a a w_e_dot
       set_w_e set_v x set_x a_0 a_1 a_2 c_a c_r1 g].
  rewrite (R_div_defined _ _ HJ).
  cbn [w_e v set_w_e_dot GR r_e J_e m c F_max sample_time set_a a w_e_dot
       set_w_e set_v x set_x a_0 a_1 a_2 c_a c_r1 g].
  rewrite (R_div_defined _ _ Hv).
  rewrite (R_div_defined _ _ Hm).
  cbn [w_e v set_w_e_dot GR r_e J_e m c F_max sample_time set_a a w_e_dot
       set_w_e set_v x set_x a_0 a_1 a_2 c_a c_r1 g].
  rewrite Q2R_1, Q2R_half.
  reflexivity.
Qed.






End Exact.





(** ** Runs in binary64 arithmetic *)

(** Closed statements about runs are settled by evaluation: the statement
    is taken apart from left to right, a value asked for is read off the
    first atom that determines it, and each atom is evaluated. *)
Ltac evaluate :=
  cbv zeta;
  lazymatch goal with
  | |- exists _, _ => eexists; evaluate
  | |- _ /\ _ => split; [evaluate | evaluate]
  | |- _ => vm_compute; reflexivity
  end.


(** The literals of the source denote the binary64 values the interpreter
    reads them as. *)
Example source_literals :
  map float_of_Q [0.1; -0.0002; 0.35; 0.3; 9.81; 1.36; 0.01; 0.5; 0.4; 1e-4]%Q
  = [0.1; -0.0002; 0.35; 0.3; 9.81; 1.36; 0.01; 0.5; 0.4; 1e-4]%float
  /\ map float_of_Q [400; 10; 2000; 10000; 0; 5; 100; 1]%Q
    = [400; 10; 2000; 10000; 0; 5; 100; 1]%float.
Proof. split; vm_compute; reflexivity. Qed.

Section Binary64Runs.
Variable libm_sin : float -> float.
#[local] Instance binary64 : PyNum pyfloat := pyfloat_num libm_sin.

Lemma pyfloat_div_val (n d q : pyfloat) :
  py_div n d = Ok q -> val q = PrimFloat.div (val n) (val d).
Proof.
  cbn; unfold pyfloat_div.
  destruct (kind_join (kind_of n) (kind_of d));
    [destruct (PrimFloat.is_zero (val d)); [discriminate|]|];
    intros E; injection E as <-; reflexivity.
Qed.

Lemma pyfloat_div_numpy (n d q : pyfloat) :
  py_div n d = Ok q -> kind_of n = NpScalar -> kind_of q = NpScalar.
Proof.
  cbn; unfold pyfloat_div; intros E Hn; rewrite Hn in E; cbn in E.
  injection E as <-; reflexivity.
Qed.

(** C1, as the code has it. From the state [__init__] builds, with the
    sample time [0.01], the call [step(0.4, 0)] returns and its local
    variables and the state it leaves are, to the precision the values are
    written with: [T_e = 163.2], [F_aero = 34], [R_x = 0.05], [F_g = 0],
    [F_load = 34.05], [w_e_dot = 15.962], [w_w = 35], [s = 1.1], so that
    [abs(s) < 1] fails and [F_x = F_max = 10000], [a = 4.983],
    [w_e = 100.1596], [v = 5.04983] and [x = 0.05025]. *)
Theorem golden_first_step :
  exists self' l,
    step_locals __init__ (py_lit 0.4) (py_lit 0) = (self', Ok l) /\
    agrees (T_e l) 163.2 1e-9 = true /\
    agrees (F_areo l) 34 1e-9 = true /\
    agrees (R_x l) 0.05 1e-9 = true /\
    agrees (F_g l) 0 0 = true /\
    agrees (F_load l) 34.05 1e-9 = true /\
    agrees (w_e_dot self') 15.962 0.0005 = true /\
    agrees (w_w l) 35 1e-9 = true /\
    agrees (s l) 1.1 1e-9 = true /\
    py_lt (py_abs (s l)) (py_lit 1) = false /\
    F_x l = F_max __init__ /\
    agrees (F_x l) 10000 0 = true /\
    agrees (a self') 4.983 0.0005 = true /\
    agrees (w_e self') 100.1596 0.00005 = true /\
    agrees (v self') 5.04983 0.000005 = true /\
    agrees (x self') 0.05025 0.000005 = true.
Proof. evaluate. Qed.

Lemma all_settled_nth (l : list pyfloat) (p d : pyfloat) (i : nat) :
  all_settled p l = true -> (i < length l)%nat ->
  settled (nth i (p :: l) d) (nth i l d) = true.
Proof.
  revert p i; induction l as [|q l IH]; intros p i Hall Hi; cbn in Hi; [lia|].
  cbn [all_settled] in Hall; apply andb_true_iff in Hall as [Hpq Hl].
  destruct i as [|i]; [exact Hpq|].
  cbn [nth]; apply IH; [exact Hl | lia].
Qed.

Lemma settled_from_nth (k : nat) (v_data : list pyfloat) (d : pyfloat) :
  settled_from k v_data = true ->
  forall n, (k < n < length v_data)%nat ->
  settled (nth (n - 1) v_data d) (nth n v_data d) = true.
Proof.
  unfold settled_from; intros Hall n Hn.
  pose proof (length_skipn k v_data) as Hlen.
  pose proof (nth_skipn k v_data (n - 1 - k) d) as Hprev.
  pose proof (nth_skipn k v_data (n - k) d) as Hcur.
  destruct (skipn k v_data) as [|v_k rest]; [discriminate|].
  cbn [length] in Hlen.
  replace (k + (n - 1 - k))%nat with (n - 1)%nat in Hprev by lia.
  replace (k + (n - k))%nat with n in Hcur by lia.
  rewrite <- Hprev, <- Hcur.
  replace (n - k)%nat with (S (n - 1 - k)) by lia.
  cbn [nth]; apply all_settled_nth; [exact Hall | lia].
Qed.

(** C7. The constant-throttle cell, run for 10000 iterations from the state
    [__init__] builds with throttle [0.4] and incline [0], completes without
    an exception and records 10000 velocities; from iteration 5627 to the
    end of the run every recorded velocity differs from the one before it by
    less than [1e-4], and the run ends near the balance [F_x = F_load], the
    last acceleration being below [0.001] in absolute value at a velocity of
    about 33.86. *)
Theorem constant_throttle_settles :
  exists model' v_data,
    drive 10000 __init__ (py_lit 0.4) (py_lit 0) = (model', Ok v_data) /\
    length v_data = 10000%nat /\
    (exists n0, (1 <= n0 < length v_data)%nat /\
       forall n, (n0 <= n < length v_data)%nat ->
         settled (nth (n - 1) v_data (py_lit 0)) (nth n v_data (py_lit 0))
         = true) /\
    agrees (a model') 0 0.001 = true /\
    agrees (v model') 33.86 0.01 = true.
Proof.
  eexists; eexists; split; [vm_compute; reflexivity|].
  match goal with |- length ?l = _ /\ _ => set (v_data := l) end.
  split; [vm_compute; reflexivity|].
  split; [|split; vm_compute; reflexivity].
  set (k := 5626%nat).
  exists (S k); split.
  - split; [lia | apply Nat.ltb_lt; vm_compute; reflexivity].
  - intros n Hn; apply (settled_from_nth k); [vm_compute; reflexivity | lia].
Qed.

Lemma kind_join_numpy_r (k : kind) : kind_join k NpScalar = NpScalar.
Proof. destruct k; reflexivity. Qed.


(** A call that returned leaves NumPy scalars in the five state variables:
    the gravity term goes through [np.sin]. *)
Lemma step_leaves_numpy (self self' : t pyfloat) (throttle alpha : pyfloat)
  (l : locals pyfloat) :
  step_locals self throttle alpha = (self', Ok l) ->
  kind_of (x self') = NpScalar /\ kind_of (v self') = NpScalar /\
  kind_of (a self') = NpScalar /\ kind_of (w_e self') = NpScalar /\
  kind_of (w_e_dot self') = NpScalar.
Proof.
  intros E.
  destruct (step_locals_Ok _ _ _ _ _ E) as
    (w_e_sq & v_sq & wd & sl & acc & dt_sq & _ & _ & _ & Hwd & _ & Hacc & _
     & _ & _ & HFg & HFl & _ & _ & _ & Hwd' & Ha' & Hw' & Hv' & Hx').
  assert (HkF : kind_of (F_load l) = NpScalar).
  { rewrite HFl, HFg; cbn; now rewrite !kind_join_numpy_r. }
  assert (Hkwd : kind_of wd = NpScalar).
  { apply (pyfloat_div_numpy _ _ _ Hwd); cbn; rewrite HkF.
    now rewrite !kind_join_numpy_r. }
  assert (Hkacc : kind_of acc = NpScalar).
  { apply (pyfloat_div_numpy _ _ _ Hacc); cbn; rewrite HkF.
    now rewrite !kind_join_numpy_r. }
  assert (Hkv : kind_of (v self') = NpScalar).
  { rewrite Hv'; cbn; rewrite Hkacc; cbn; now rewrite !kind_join_numpy_r. }
  repeat split.
  - rewrite Hx'; cbn; rewrite Hkv; cbn; now rewrite !kind_join_numpy_r.
  - exact Hkv.
  - rewrite Ha'; exact Hkacc.
  - rewrite Hw'; cbn; rewrite Hkwd; cbn; now rewrite !kind_join_numpy_r.
  - rewrite Hwd'; exact Hkwd.
Qed.

(** With the parameters of [__init__], a call returns whenever [v] and [w_e]
    are the Python integers [reset] stores or are NumPy scalars. *)
Lemma step_returns (self : t pyfloat) (throttle alpha : pyfloat) :
  same_parameters self __init__ ->
  (v self = py_lit 5 /\ w_e self = py_lit 100) \/
  (kind_of (v self) = NpScalar /\ kind_of (w_e self) = NpScalar) ->
  snd (step self throttle alpha) = Ok tt.
Proof.
  intros Hp Hs.
  destruct self as
    [p1 p2 p3 p4 p5 p6 p7 p8 p9 p10 p11 p12 x0 [kv fv] acc0 [kw fw] wd0 dt0].
  unfold same_parameters in Hp; cbn in Hp, Hs.
  decompose [and] Hp; subst.
  destruct Hs as [[Hv Hw]|[Hv Hw]].
  - injection Hv as -> ->; injection Hw as -> ->.
    destruct throttle as [[|] ft], alpha as [[|] fa]; vm_compute;
      repeat match goal with
             | |- context [if ?b then _ else _] => destruct b
             end; reflexivity.
  - subst kv kw.
    destruct throttle as [[|] ft], alpha as [[|] fa]; vm_compute;
      repeat match goal with
             | |- context [if ?b then _ else _] => destruct b
             end; reflexivity.
Qed.

Lemma step_snd_Ok (self : t pyfloat) (throttle alpha : pyfloat) :
  snd (step self throttle alpha) = Ok tt ->
  exists l,
    step_locals self throttle alpha = (fst (step self throttle alpha), Ok l).
Proof.
  unfold step.
  destruct (step_locals self throttle alpha) as [self' [l|e]]; cbn;
    [intros _; exists l; reflexivity | discriminate].
Qed.



End Binary64Runs.

(** The position after the first call is the one the updated velocity
    gives; the velocity before the call would give [0.04975...]. *)
Example position_uses_updated_velocity :
  let num := pyfloat_num libm_absent in
  let self := @__init__ pyfloat num in
  let self' := fst (step self (py_lit 0.4) (py_lit 0)) in
  let dt := sample_time self in
  let half_a_dt_sq :=
    PrimFloat.mul (PrimFloat.mul 0.5 (val (a self')))
                  (PrimFloat.mul (val dt) (val dt)) in
  val (x self')
  = PrimFloat.add (val (x self))
      (PrimFloat.sub (PrimFloat.mul (val (v self')) (val dt)) half_a_dt_sq) /\
  val (x self') = 0.05024914875%float /\
  PrimFloat.add (val (x self))
    (PrimFloat.sub (PrimFloat.mul (val (v self)) (val dt)) half_a_dt_sq)
  = 0.049750851250000006%float.
Proof. evaluate. Qed.


(** In binary64 the law of the velocity under zero throttle holds up to
    rounding only: at [v = 5], [w_e = 47.781190476190474] the tire force is
    below the load force by a few units in the last place, the acceleration
    is negative and of the order of [1e-16], and the velocity is left as it
    was. *)
Example zero_throttle_absorbed_in_binary64 :
  let num := pyfloat_num libm_absent in
  let self :=
    set_w_e (set_v __init__ (mk_pyfloat NpScalar 5%float))
            (mk_pyfloat NpScalar 47.781190476190474%float) in
  exists self' l,
    step_locals self (py_lit 0) (py_lit 0) = (self', Ok l) /\
    val (F_x l) = 34.049999999998803%float /\
    val (F_load l) = 34.049999999999997%float /\
    py_lt (F_x l) (F_load l) = true /\
    py_lt (a self') (py_lit 0) = true /\
    val (v self') = val (v self).
Proof. evaluate. Qed.

(** C1 as stated fails on its last value: the position after the call is
    [0.05024914875], away from [0.05041] by more than the precision it is
    written with, and by more than [0.0001]. *)
Lemma golden_first_step_counterexample :
  let num := pyfloat_num libm_absent in
  let self' := fst (step_locals __init__ (py_lit 0.4) (py_lit 0)) in
  val (x self') = 0.05024914875%float /\
  agrees (x self') 0.05041 0.000005 = false /\
  agrees (x self') 0.05041 0.0001 = false.
Proof. evaluate. Qed.




(** * Further properties of the class and of the notebook's loops *)

(** ** At every number system *)

Section GenericFurther.
Context {T : Type} `{PyNum T}.
Local Open Scope py_scope.

Lemma step_locals_agree (s1 s2 : t T) (throttle alpha : T) :
  same_parameters s1 s2 -> v s1 = v s2 -> w_e s1 = w_e s2 ->
  let r1 := step_locals s1 throttle alpha in
  let r2 := step_locals s2 throttle alpha in
  snd r1 = snd r2 /\
  v (fst r1) = v (fst r2) /\ w_e (fst r1) = w_e (fst r2) /\
  (forall l, snd r1 = Ok l ->
     a (fst r1) = a (fst r2) /\ w_e_dot (fst r1) = w_e_dot (fst r2) /\
     exists inc, x (fst r1) = x s1 + inc /\ x (fst r2) = x s2 + inc).
Proof.
  intros Hp Hv Hw.
  destruct s1 as [p1 p2 p3 p4 p5 p6 p7 p8 p9 p10 p11 p12 x1 v1 a1 w1 wd1 dt1].
  destruct s2 as [q1 q2 q3 q4 q5 q6 q7 q8 q9 q10 q11 q12 x2 v2 a2 w2 wd2 dt2].
  unfold same_parameters in Hp; cbn in Hp, Hv, Hw.
  decompose [and] Hp; subst.
  cbv zeta; unfold step_locals; cbn.
  repeat match goal with
         | |- context [match ?e with Ok _ => _ | Raise _ => _ end] =>
             destruct e; cbn
         end;
    repeat split; try discriminate; intros; try discriminate;
    repeat split; eexists; split; reflexivity.
Qed.


Lemma steps_repeat_S (self : t T) (throttle alpha : T) (n : nat) :
  steps self (repeat (throttle, alpha) (S n))
  = steps (fst (step self throttle alpha)) (repeat (throttle, alpha) n).
Proof. reflexivity. Qed.

(** X2. When the constant-throttle loop completes [n] iterations, it has
    recorded [n] velocities, the [i]-th of them being the velocity after [i]
    calls: the first is the velocity the loop started with, and the velocity
    after the last call is in the model only, not in [v_data]. *)
Theorem drive_records (n : nat) (model model' : t T) (throttle alpha : T)
  (v_data : list T) :
  drive n model throttle alpha = (model', Ok v_data) ->
  length v_data = n /\
  model' = steps model (repeat (throttle, alpha) n) /\
  forall i d, (i < n)%nat ->
    nth i v_data d = v (steps model (repeat (throttle, alpha) i)).
Proof.
  revert model v_data; induction n as [|n IH]; intros model v_data; cbn [drive].
  - intros E; injection E as <- <-; repeat split; intros; lia.
  - destruct (step model throttle alpha) as [m1 [u|e]] eqn:Es; [|discriminate].
    destruct (drive n m1 throttle alpha) as [m2 [vs|e]] eqn:Ed; [|discriminate].
    intros E; injection E as <- <-.
    destruct (IH _ _ Ed) as (Hlen & Hm & Hnth).
    assert (Hm1 : m1 = fst (step model throttle alpha)) by (rewrite Es; reflexivity).
    split; [cbn; lia|].
    split; [rewrite steps_repeat_S, <- Hm1; exact Hm|].
    intros [|i] d Hi; [reflexivity|].
    rewrite steps_repeat_S, <- Hm1; cbn [nth]; apply Hnth; lia.
Qed.

(** X3. A steady state stays: if one call leaves [v] and [w_e] as they were,
    then so does every later call with the same throttle and incline. *)
Theorem steady_state_stays (self : t T) (throttle alpha : T) (n : nat) :
  v (fst (step self throttle alpha)) = v self ->
  w_e (fst (step self throttle alpha)) = w_e self ->
  v (steps self (repeat (throttle, alpha) n)) = v self /\
  w_e (steps self (repeat (throttle, alpha) n)) = w_e self.
Proof.
  revert self; induction n as [|n IH]; intros self Hv Hw; [split; reflexivity|].
  rewrite steps_repeat_S.
  set (self1 := fst (step self throttle alpha)) in *.
  assert (Hp : same_parameters self1 self)
    by (apply same_parameters_sym, step_parameters).
  destruct (step_locals_agree self1 self throttle alpha Hp Hv Hw)
    as (_ & Hv1 & Hw1 & _).
  rewrite <- !step_fst in Hv1, Hw1; fold self1 in Hv1, Hw1.
  destruct (IH self1 Hv1 Hw1) as [IHv IHw].
  split; congruence.
Qed.

(** X4. The throttle acts with one call of delay: of what a returning call
    stores, only [w_e_dot] and [w_e] depend on the throttle passed to it;
    the tire force, the load force, [a], [v] and [x] are the same for any
    two throttles. *)
Theorem throttle_acts_next_call (self s1 s2 : t T) (th1 th2 alpha : T)
  (l1 l2 : locals T) :
  step_locals self th1 alpha = (s1, Ok l1) ->
  step_locals self th2 alpha = (s2, Ok l2) ->
  F_load l1 = F_load l2 /\ s l1 = s l2 /\ F_x l1 = F_x l2 /\
  a s1 = a s2 /\ v s1 = v s2 /\ x s1 = x s2.
Proof.
  intros E1 E2.
  destruct (step_locals_Ok _ _ _ _ _ E1) as
    (w_e_sq & v_sq & wd & sl & acc & dt_sq & _ & Hv2 & Hdt2 & _ & Hs
     & Hacc & _ & HFa & HRx & HFg & HFl & Hww & Hsl & HFx & _ & Ha'
     & _ & Hv' & Hx').
  destruct (step_locals_Ok _ _ _ _ _ E2) as
    (w_e_sq' & v_sq' & wd' & sl' & acc' & dt_sq' & _ & Hv2' & Hdt2' & _ & Hs'
     & Hacc' & _ & HFa' & HRx' & HFg' & HFl' & Hww' & Hsl' & HFx' & _ & Ha''
     & _ & Hv'' & Hx'').
  assert (v_sq' = v_sq) by congruence; subst v_sq'.
  assert (dt_sq' = dt_sq) by congruence; subst dt_sq'.
  assert (HF : F_load l1 = F_load l2) by congruence.
  assert (Hsl2 : sl' = sl).
  { rewrite Hww in Hs; rewrite Hww' in Hs'. rewrite Hs in Hs'.
    injection Hs' as Hq; symmetry; exact Hq. }
  rewrite Hsl2 in Hsl', HFx'.
  assert (HX : F_x l1 = F_x l2) by (rewrite HFx, HFx'; reflexivity).
  assert (Hacc2 : acc' = acc).
  { rewrite HF, HX, Hacc' in Hacc; injection Hacc as Hq; exact Hq. }
  rewrite Hacc2 in Ha'', Hv'', Hx''.
  assert (HV : v s1 = v s2) by (rewrite Hv', Hv''; reflexivity).
  repeat split.
  - exact HF.
  - rewrite Hsl, Hsl'; reflexivity.
  - exact HX.
  - rewrite Ha', Ha''; reflexivity.
  - exact HV.
  - rewrite Hx', Hx'', HV; reflexivity.
Qed.

End GenericFurther.

(** ** In exact arithmetic *)

Section ExactFurther.
Local Open Scope R_scope.

Lemma Rabs_lt_1_quotient (rim vel : R) :
  0 < vel -> (Rabs ((rim - vel) / vel) < 1 <-> 0 < rim < 2 * vel).
Proof.
  intros Hv.
  set (q := (rim - vel) / vel).
  assert (Hq : q * vel = rim - vel) by (unfold q; field; lra).
  split.
  - intros Habs; apply Rabs_def2 in Habs; nra.
  - intros Hrim; apply Rabs_def1; nra.
Qed.

(** X5. With a positive velocity the tire force has two regimes, decided by
    the rim speed [GR * w_e * r_e]: strictly between [0] and [2 * v] the
    force is [c * s]; otherwise it is [F_max], also when the wheel stands
    still or turns backwards ([s <= -1]), where a force proportional to the
    slip would be negative. *)
Theorem tire_force_regimes (self : t R) (throttle alpha : R) :
  0 < v self -> J_e self <> 0 -> m self <> 0 ->
  let rim := GR self * w_e self * r_e self in
  exists self' l,
    step_locals self throttle alpha = (self', Ok l) /\
    s l = (rim - v self) / v self /\
    (0 < rim < 2 * v self -> F_x l = c self * s l) /\
    (rim <= 0 \/ 2 * v self <= rim -> F_x l = F_max self).
Proof.
  intros Hv HJ Hm; cbv zeta.
  assert (Hv0 : v self <> 0) by lra.
  pose proof (R_step_locals self throttle alpha Hv0 HJ Hm) as E; cbv zeta in E.
  eexists; eexists; split; [exact E|]; cbn [s F_x].
  split; [reflexivity|].
  pose proof (Rabs_lt_1_quotient (GR self * w_e self * r_e self) (v self) Hv)
    as Hiff.
  split.
  - intros Hrim; rewrite Rltb_true; [reflexivity | apply Hiff; exact Hrim].
  - intros Hrim; rewrite Rltb_false; [reflexivity|].
    intros Habs; apply Hiff in Habs; lra.
Qed.

(** X6. With the parameters of [__init__], a positive velocity and an
    incline whose sine is not negative, the load force is not negative, the
    tire force lies in [(-10000, 10000]], the acceleration is at most
    [5] and above [-5 - F_load / 2000], and the velocity gains at most
    [0.05] over the call. *)
Theorem step_acceleration_bounds (self : t R) (throttle alpha : R) :
  same_parameters self __init__ -> 0 < v self -> 0 <= sin alpha ->
  exists self' l,
    step_locals self throttle alpha = (self', Ok l) /\
    0 <= F_load l /\
    -10000 < F_x l <= 10000 /\
    - 5 - F_load l / 2000 < a self' <= 5 /\
    v self' <= v self + 0.05.
Proof.
  intros Hp Hv Hsin.
  destruct self as
    [p1 p2 p3 p4 p5 p6 p7 p8 p9 p10 p11 p12 x0 v0 acc0 w0 wd0 dt0].
  unfold same_parameters in Hp; cbn in Hp, Hv.
  decompose [and] Hp; subst.
  match goal with |- exists self' l, step_locals ?st _ _ = _ /\ _ =>
    assert (Hv0 : v st <> 0) by (cbn; lra);
    assert (HJ : J_e st <> 0) by (cbn; unfold Q2R; cbn; lra);
    assert (Hm : m st <> 0) by (cbn; unfold Q2R; cbn; lra);
    pose proof (R_step_locals st throttle alpha Hv0 HJ Hm) as E
  end.
  cbv zeta in E; cbn [a_0 a_1 a_2 GR r_e J_e m g c_a c_r1 c F_max x v a w_e
                      w_e_dot sample_time] in E.
  eexists; eexists; split; [exact E|]; cbn [F_load F_x a v].
  set (Fg := Q2R 2000 * Q2R 9.81 * sin alpha).
  assert (HFg : 0 <= Fg) by (unfold Fg, Q2R; cbn; nra).
  set (Fl := Q2R 1.36 * (v0 * v0) + Q2R 0.01 * v0 + Fg).
  assert (HFl : 0 <= Fl) by (unfold Fl, Q2R; cbn; nra).
  set (sl := (Q2R 0.35 * w0 * Q2R 0.3 - v0) / v0).
  set (Fx := if Rltb (Rabs sl) 1 then Q2R 10000 * sl else Q2R 10000).
  assert (HFx : -10000 < Fx <= 10000).
  { unfold Fx, Rltb; destruct (Rlt_dec (Rabs sl) 1) as [Hs|Hs].
    - apply Rabs_def2 in Hs; unfold Q2R; cbn; lra.
    - unfold Q2R; cbn; lra. }
  split; [exact HFl|].
  split; [exact HFx|].
  unfold Q2R; cbn; lra.
Qed.

(** X7. Where the call returns and the sample time is not zero, the velocity
    is left unchanged exactly when the tire force balances the load force,
    and the engine speed exactly when the engine torque balances the load
    torque [GR * r_e * F_load]. *)
Theorem step_balance (self : t R) (throttle alpha : R) :
  v self <> 0 -> J_e self <> 0 -> m self <> 0 -> sample_time self <> 0 ->
  exists self' l,
    step_locals self throttle alpha = (self', Ok l) /\
    (v self' = v self <-> F_x l = F_load l) /\
    (w_e self' = w_e self <-> T_e l = GR self * r_e self * F_load l).
Proof.
  intros Hv HJ Hm Hdt.
  pose proof (R_step_locals self throttle alpha Hv HJ Hm) as E; cbv zeta in E.
  eexists; eexists; split; [exact E|]; cbn [v w_e F_x F_load T_e].
  match goal with
  | |- (v self + (?Fx - ?Fl) / _ * _ = _ <-> _) /\
       (w_e self + (?Te - ?Tl) / _ * _ = _ <-> _) =>
      generalize Fx Fl Te Tl
  end.
  intros Fx Fl Te Tl.
  assert (Hk : forall d k, k <> 0 -> (d / k * sample_time self = 0 <-> d = 0)).
  { intros d k Hk0; split; intros Hd; [|rewrite Hd; field; exact Hk0].
    assert (Hd' : d = d / k * sample_time self * (k / sample_time self))
      by (field; split; assumption).
    rewrite Hd' , Hd; ring. }
  split.
  - pose proof (Hk (Fx - Fl) (m self) Hm) as [H1 H2].
    split; intros Heq; [assert (Fx - Fl = 0) by (apply H1; lra); lra|].
    assert ((Fx - Fl) / m self * sample_time self = 0) by (apply H2; lra); lra.
  - pose proof (Hk (Te - Tl) (J_e self) HJ) as [H1 H2].
    split; intros Heq; [assert (Te - Tl = 0) by (apply H1; lra); lra|].
    assert ((Te - Tl) / J_e self * sample_time self = 0) by (apply H2; lra); lra.
Qed.

(** X8. The throttle schedule of the ramp cell is defined at every time; it
    is [0.2 + 0.06 t] before 5, [0.5] from 5 to 15 and [0.1 (20 - t)] from
    15 on, so the pieces meet at 5 and at 15 and the throttle reaches 0 at
    20.  Between 0 and 20 it stays within [[0, 0.5]], inside the range
    [[0, 1]] the model takes; after 20 it is negative. *)
Theorem throttle_schedule (t_i : R) :
  exists th,
    throttle_at t_i = Ok th /\
    (t_i < 5 -> th = 0.2 + 0.06 * t_i) /\
    (5 <= t_i < 15 -> th = 0.5) /\
    (15 <= t_i -> th = 0.1 * (20 - t_i)) /\
    (0 <= t_i <= 20 -> 0 <= th <= 0.5) /\
    (20 < t_i -> th < 0).
Proof.
  unfold throttle_at; cbn [py_lt py_div py_add py_sub py_mul py_lit R_num].
  rewrite !R_div_defined by (unfold Q2R; cbn; lra).
  unfold Rltb.
  destruct (Rlt_dec t_i (Q2R 5)) as [H5|H5];
    [|destruct (Rlt_dec t_i (Q2R 15)) as [H15|H15]];
    eexists; (split; [reflexivity|]);
    unfold Q2R in *; cbn in *; repeat split; intros; lra.
Qed.

(** X9. [angle] is defined at every position: it gives [arctan(3/60)] below
    60, negative positions included, [arctan(9/90)] from 60 to below 150,
    and [0] from 150 on.  The incline is never negative and stays below a
    right angle, so its sine, and with it the gravity term of the load, is
    never negative. *)
Theorem angle_profile (pos : R) :
  exists al,
    angle pos = Ok al /\
    (pos < 60 -> al = atan (3 / 60)) /\
    (60 <= pos < 150 -> al = atan (9 / 90)) /\
    (150 <= pos -> al = 0) /\
    0 <= al < PI / 2 /\
    0 <= sin al.
Proof.
  assert (Hat : forall q, 0 < q -> 0 <= atan q < PI / 2).
  { intros q Hq; split; [|apply atan_bound].
    rewrite <- atan_0; left; apply atan_increasing; exact Hq. }
  assert (Hsin : forall al, 0 <= al < PI / 2 -> 0 <= sin al).
  { intros al [H0 H1]; apply sin_ge_0; [exact H0|]. pose proof PI_RGT_0; lra. }
  unfold angle; cbn [py_lt py_div py_lit R_num np_arctan R_numpy].
  rewrite !R_div_defined by (unfold Q2R; cbn; lra).
  unfold Rltb.
  assert (H3 : Q2R 3 / Q2R 60 = 3 / 60) by (unfold Q2R; cbn; field).
  assert (H9 : Q2R 9 / Q2R 90 = 9 / 90) by (unfold Q2R; cbn; field).
  assert (H60 : Q2R 60 = 60) by (unfold Q2R; cbn; lra).
  assert (H150 : Q2R 150 = 150) by (unfold Q2R; cbn; lra).
  rewrite H3, H9, H60, H150.
  pose proof (Hat (3 / 60) ltac:(lra)) as Ha3.
  pose proof (Hat (9 / 90) ltac:(lra)) as Ha9.
  pose proof PI_RGT_0 as Hpi.
  destruct (Rlt_dec pos 60) as [Hlt60|Hge60];
    [|destruct (Rlt_dec pos 150) as [Hlt150|Hge150]];
    eexists; (split; [reflexivity|]).
  - repeat split; intros; try lra; try apply Ha3. apply Hsin, Ha3.
  - repeat split; intros; try lra; try apply Ha9. apply Hsin, Ha9.
  - rewrite Q2R_0.
    repeat split; intros; try lra. rewrite sin_0; lra.
Qed.

End ExactFurther.

(** ** In binary64 arithmetic *)

Lemma is_nan_Prim2SF (f : float) :
  PrimFloat.is_nan f = true -> Prim2SF f = S754_nan.
Proof.
  unfold PrimFloat.is_nan; rewrite eqb_spec.
  destruct (Prim2SF f) as [sf|sf| |sf mf ef]; [..|reflexivity|]; cbn.
  - discriminate.
  - destruct sf; discriminate.
  - unfold SFeqb, SFcompare.
    rewrite Z.compare_refl, Pos.compare_cont_refl.
    destruct sf; discriminate.
Qed.

Lemma Prim2SF_is_nan (f : float) :
  Prim2SF f = S754_nan -> PrimFloat.is_nan f = true.
Proof.
  unfold PrimFloat.is_nan; rewrite eqb_spec; intros ->; reflexivity.
Qed.

(** A NaN operand makes the result of the four operations a NaN, and every
    comparison with it false. *)
Lemma nan_arith (f g : float) :
  PrimFloat.is_nan f = true ->
  PrimFloat.is_nan (PrimFloat.add f g) = true /\
  PrimFloat.is_nan (PrimFloat.add g f) = true /\
  PrimFloat.is_nan (PrimFloat.sub f g) = true /\
  PrimFloat.is_nan (PrimFloat.sub g f) = true /\
  PrimFloat.is_nan (PrimFloat.mul f g) = true /\
  PrimFloat.is_nan (PrimFloat.mul g f) = true /\
  PrimFloat.is_nan (PrimFloat.div f g) = true /\
  PrimFloat.is_nan (PrimFloat.div g f) = true /\
  PrimFloat.ltb (PrimFloat.abs f) g = false /\
  PrimFloat.ltb f g = false.
Proof.
  intros Hf; apply is_nan_Prim2SF in Hf.
  repeat split; try apply Prim2SF_is_nan;
    rewrite ?add_spec, ?sub_spec, ?mul_spec, ?div_spec, ?ltb_spec, ?abs_spec, Hf;
    unfold SF64add, SF64sub, SF64mul, SF64div;
    destruct (Prim2SF g); reflexivity.
Qed.

Lemma nan_add_l f g : PrimFloat.is_nan f = true -> PrimFloat.is_nan (PrimFloat.add f g) = true.
Proof. intros Hf; apply (nan_arith f g Hf). Qed.
Lemma nan_add_r f g : PrimFloat.is_nan g = true -> PrimFloat.is_nan (PrimFloat.add f g) = true.
Proof. intros Hg; apply (nan_arith g f Hg). Qed.
Lemma nan_sub_l f g : PrimFloat.is_nan f = true -> PrimFloat.is_nan (PrimFloat.sub f g) = true.
Proof. intros Hf; apply (nan_arith f g Hf). Qed.
Lemma nan_sub_r f g : PrimFloat.is_nan g = true -> PrimFloat.is_nan (PrimFloat.sub f g) = true.
Proof. intros Hg; apply (nan_arith g f Hg). Qed.
Lemma nan_mul_l f g : PrimFloat.is_nan f = true -> PrimFloat.is_nan (PrimFloat.mul f g) = true.
Proof. intros Hf; apply (nan_arith f g Hf). Qed.
Lemma nan_mul_r f g : PrimFloat.is_nan g = true -> PrimFloat.is_nan (PrimFloat.mul f g) = true.
Proof. intros Hg; apply (nan_arith g f Hg). Qed.
Lemma nan_div_l f g : PrimFloat.is_nan f = true -> PrimFloat.is_nan (PrimFloat.div f g) = true.
Proof. intros Hf; apply (nan_arith f g Hf). Qed.
Lemma nan_div_r f g : PrimFloat.is_nan g = true -> PrimFloat.is_nan (PrimFloat.div f g) = true.
Proof. intros Hg; apply (nan_arith g f Hg). Qed.
Lemma nan_not_below f g :
  PrimFloat.is_nan f = true -> PrimFloat.ltb (PrimFloat.abs f) g = false.
Proof. intros Hf; apply (nan_arith f g Hf). Qed.

(** A binary64 expression with a NaN somewhere under its operations is a
    NaN. *)
Ltac nan :=
  match goal with
  | Hn : PrimFloat.is_nan ?f = true |- PrimFloat.is_nan ?f = true => exact Hn
  | |- PrimFloat.is_nan (PrimFloat.add _ _) = true =>
      first [apply nan_add_l; nan | apply nan_add_r; nan]
  | |- PrimFloat.is_nan (PrimFloat.sub _ _) = true =>
      first [apply nan_sub_l; nan | apply nan_sub_r; nan]
  | |- PrimFloat.is_nan (PrimFloat.mul _ _) = true =>
      first [apply nan_mul_l; nan | apply nan_mul_r; nan]
  | |- PrimFloat.is_nan (PrimFloat.div _ _) = true =>
      first [apply nan_div_l; nan | apply nan_div_r; nan]
  end.

Section Binary64Further.
Variable libm_sin : float -> float.
Variable libm_atan : float -> float.
#[local] Instance binary64' : PyNum pyfloat := pyfloat_num libm_sin.
#[local] Instance numpy64 : NumPy pyfloat := pyfloat_numpy libm_atan.

Lemma pyfloat_pow2_val (b sq : pyfloat) :
  py_pow2 b = Ok sq -> val sq = PrimFloat.mul (val b) (val b).
Proof.
  cbn; unfold pyfloat_pow2.
  destruct (kind_of b);
    [destruct (PrimFloat.is_finite (val b) && _); [discriminate|]|];
    intros E; injection E as <-; reflexivity.
Qed.

(** The values a returning call works with, as binary64 expressions. *)
Lemma step_locals_vals (self self' : t pyfloat) (throttle alpha : pyfloat)
  (l : locals pyfloat) :
  step_locals self throttle alpha = (self', Ok l) ->
  let dt := val (sample_time self) in
  let T := PrimFloat.mul (val throttle)
             (PrimFloat.add
                (PrimFloat.add (val (a_0 self))
                   (PrimFloat.mul (val (a_1 self)) (val (w_e self))))
                (PrimFloat.mul (val (a_2 self))
                   (PrimFloat.mul (val (w_e self)) (val (w_e self))))) in
  let Fl := PrimFloat.add
              (PrimFloat.add
                 (PrimFloat.mul (val (c_a self))
                    (PrimFloat.mul (val (v self)) (val (v self))))
                 (PrimFloat.mul (val (c_r1 self)) (val (v self))))
              (val (F_g l)) in
  let sl := PrimFloat.div
              (PrimFloat.sub
                 (PrimFloat.mul
                    (PrimFloat.mul (val (GR self)) (val (w_e self)))
                    (val (r_e self)))
                 (val (v self)))
              (val (v self)) in
  val (T_e l) = T /\ val (F_load l) = Fl /\ val (s l) = sl /\
  F_x l = (if PrimFloat.ltb (PrimFloat.abs sl) 1
           then py_mul (c self) (s l) else F_max self) /\
  val (w_e_dot self')
  = PrimFloat.div
      (PrimFloat.sub T
         (PrimFloat.mul (PrimFloat.mul (val (GR self)) (val (r_e self))) Fl))
      (val (J_e self)) /\
  val (a self')
  = PrimFloat.div (PrimFloat.sub (val (F_x l)) Fl) (val (m self)) /\
  val (w_e self')
  = PrimFloat.add (val (w_e self)) (PrimFloat.mul (val (w_e_dot self')) dt) /\
  val (v self')
  = PrimFloat.add (val (v self)) (PrimFloat.mul (val (a self')) dt) /\
  val (x self')
  = PrimFloat.add (val (x self))
      (PrimFloat.sub (PrimFloat.mul (val (v self')) dt)
         (PrimFloat.mul (PrimFloat.mul 0.5 (val (a self')))
            (PrimFloat.mul dt dt))).
Proof.
  intros E.
  destruct (step_locals_Ok _ _ _ _ _ E) as
    (w_e_sq & v_sq & wd & sl & acc & dt_sq & Hw2 & Hv2 & Hdt2 & Hwd & Hs
     & Hacc & HT & HFa & HRx & HFg & HFl & Hww & Hsl & HFx & Hwd' & Ha'
     & Hw' & Hv' & Hx').
  apply pyfloat_pow2_val in Hw2, Hv2, Hdt2.
  apply pyfloat_div_val in Hwd, Hs, Hacc.
  cbv zeta.
  assert (ET : val (T_e l) = PrimFloat.mul (val throttle)
             (PrimFloat.add
                (PrimFloat.add (val (a_0 self))
                   (PrimFloat.mul (val (a_1 self)) (val (w_e self))))
                (PrimFloat.mul (val (a_2 self))
                   (PrimFloat.mul (val (w_e self)) (val (w_e self))))))
    by (rewrite HT; cbn; rewrite Hw2; reflexivity).
  assert (EF : val (F_load l) = PrimFloat.add
              (PrimFloat.add
                 (PrimFloat.mul (val (c_a self))
                    (PrimFloat.mul (val (v self)) (val (v self))))
                 (PrimFloat.mul (val (c_r1 self)) (val (v self))))
              (val (F_g l)))
    by (rewrite HFl, HFa, HRx; cbn; rewrite Hv2; reflexivity).
  assert (Es : val (s l) = PrimFloat.div
              (PrimFloat.sub
                 (PrimFloat.mul
                    (PrimFloat.mul (val (GR self)) (val (w_e self)))
                    (val (r_e self)))
                 (val (v self)))
              (val (v self)))
    by (rewrite Hsl, Hs, Hww; reflexivity).
  repeat split.
  - exact ET.
  - exact EF.
  - exact Es.
  - rewrite HFx, <- Hsl; cbn; rewrite Es.
    change (float_of_Q 1) with 1%float; reflexivity.
  - rewrite Hwd', Hwd; cbn; rewrite ET, EF; reflexivity.
  - rewrite Ha', Hacc; cbn; rewrite EF; reflexivity.
  - rewrite Hw', Hwd'; reflexivity.
  - rewrite Hv', Ha'; reflexivity.
  - rewrite Hx', Ha'; cbn; rewrite Hdt2.
    change (float_of_Q 0.5) with 0.5%float; reflexivity.
Qed.

(** X10. A NaN velocity is absorbing.  A call that returns from a state
    whose [v] is a NaN takes the saturated branch and leaves a NaN in each
    of the five state variables; and along any run of calls from such a
    state with the parameters of [__init__] and NumPy scalars in [v] and
    [w_e], no call raises and [v] stays a NaN. *)
Theorem nan_velocity_absorbing :
  (forall self self' throttle alpha l,
     step_locals self throttle alpha = (self', Ok l) ->
     PrimFloat.is_nan (val (v self)) = true ->
     F_x l = F_max self /\
     PrimFloat.is_nan (val (x self')) = true /\
     PrimFloat.is_nan (val (v self')) = true /\
     PrimFloat.is_nan (val (a self')) = true /\
     PrimFloat.is_nan (val (w_e self')) = true /\
     PrimFloat.is_nan (val (w_e_dot self')) = true) /\
  (forall inputs self throttle alpha,
     same_parameters self __init__ ->
     kind_of (v self) = NpScalar -> kind_of (w_e self) = NpScalar ->
     PrimFloat.is_nan (val (v self)) = true ->
     snd (step (steps self inputs) throttle alpha) = Ok tt /\
     PrimFloat.is_nan (val (v (steps self inputs))) = true).
Proof.
  assert (Hone : forall self self' throttle alpha l,
     step_locals self throttle alpha = (self', Ok l) ->
     PrimFloat.is_nan (val (v self)) = true ->
     F_x l = F_max self /\
     PrimFloat.is_nan (val (x self')) = true /\
     PrimFloat.is_nan (val (v self')) = true /\
     PrimFloat.is_nan (val (a self')) = true /\
     PrimFloat.is_nan (val (w_e self')) = true /\
     PrimFloat.is_nan (val (w_e_dot self')) = true).
  { intros self self' throttle alpha l E Hn.
    destruct (step_locals_vals _ _ _ _ _ E)
      as (_ & HFl & _ & HFx & Hwd & Ha & Hw & Hv & Hx).
    rewrite nan_not_below in HFx by nan.
    assert (Hna : PrimFloat.is_nan (val (a self')) = true)
      by (rewrite Ha; nan).
    assert (Hnwd : PrimFloat.is_nan (val (w_e_dot self')) = true)
      by (rewrite Hwd; nan).
    assert (Hnv : PrimFloat.is_nan (val (v self')) = true)
      by (rewrite Hv; nan).
    repeat split; try assumption.
    - rewrite Hx; nan.
    - rewrite Hw; nan. }
  split; [exact Hone|].
  induction inputs as [|[th al] inputs IH]; intros self throttle alpha Hp Hkv Hkw Hn.
  - split; [|exact Hn].
    apply step_returns; [exact Hp | right; split; assumption].
  - cbn [steps fold_left fst snd].
    assert (Hret : snd (step self th al) = Ok tt)
      by (apply step_returns; [exact Hp | right; split; assumption]).
    destruct (step_snd_Ok _ self th al Hret) as [l E].
    destruct (step_leaves_numpy _ _ _ _ _ _ E) as (_ & Hkv' & _ & Hkw' & _).
    destruct (Hone _ _ _ _ _ E Hn) as (_ & _ & Hnv' & _).
    apply IH; try assumption.
    eapply same_parameters_trans; [|exact Hp].
    apply same_parameters_sym, step_parameters.
Qed.

(** X11. A NaN engine speed does not reach the vehicle.  A call that returns
    from a state whose [w_e] is a NaN takes the saturated branch, stores the
    acceleration [(F_max - F_load) / m], and leaves [w_e] and [w_e_dot]
    NaN. *)
Theorem nan_engine_speed_saturates (self self' : t pyfloat)
  (throttle alpha : pyfloat) (l : locals pyfloat) :
  step_locals self throttle alpha = (self', Ok l) ->
  PrimFloat.is_nan (val (w_e self)) = true ->
  F_x l = F_max self /\
  val (a self')
  = PrimFloat.div (PrimFloat.sub (val (F_max self)) (val (F_load l)))
      (val (m self)) /\
  PrimFloat.is_nan (val (w_e self')) = true /\
  PrimFloat.is_nan (val (w_e_dot self')) = true.
Proof.
  intros E Hn.
  destruct (step_locals_vals _ _ _ _ _ E)
    as (_ & HFl & _ & HFx & Hwd & Ha & Hw & _ & _).
  rewrite nan_not_below in HFx by nan.
  repeat split.
  - exact HFx.
  - rewrite Ha, HFx, HFl; reflexivity.
  - rewrite Hw; nan.
  - rewrite Hwd; nan.
Qed.

Lemma nan_not_lt f g : PrimFloat.is_nan f = true -> PrimFloat.ltb f g = false.
Proof. intros Hf; apply (nan_arith f g Hf). Qed.

(** X12. On a NaN position both comparisons of [angle] fail, so it gives
    the flat road: once the position is lost the ramp is not seen. *)
Theorem angle_of_nan_position (pos : pyfloat) :
  PrimFloat.is_nan (val pos) = true -> angle pos = Ok (py_lit 0).
Proof.
  intros Hn; unfold angle; cbn [py_lt binary64' pyfloat_num].
  rewrite !nan_not_lt by exact Hn; reflexivity.
Qed.

(** X13. The time grid and the schedule agree with the intended breakpoints
    in binary64: for each of the 2000 samples of the ramp cell the throttle
    is defined and lies in [[0, 0.5]], the first branch is taken exactly for
    [i < 500] and the second exactly for [500 <= i < 1500]. *)
Theorem throttle_on_the_grid (i : nat) :
  (i < 2000)%nat ->
  exists th,
    throttle_at (t_data i) = Ok th /\
    PrimFloat.leb 0 (val th) = true /\ PrimFloat.leb (val th) 0.5 = true /\
    py_lt (t_data i) (py_lit 5) = Nat.ltb i 500 /\
    py_lt (t_data i) (py_lit 15) = Nat.ltb i 1500.
Proof.
  intros Hi.
  assert (Hall :
    forallb
      (fun i =>
         match throttle_at (t_data i) with
         | Ok th =>
             PrimFloat.leb 0 (val th) && PrimFloat.leb (val th) 0.5
             && Bool.eqb (py_lt (t_data i) (py_lit 5)) (Nat.ltb i 500)
             && Bool.eqb (py_lt (t_data i) (py_lit 15)) (Nat.ltb i 1500)
         | Raise _ => false
         end)
      (seq 0 2000) = true) by (vm_compute; reflexivity).
  rewrite forallb_forall in Hall.
  specialize (Hall i ltac:(apply in_seq; lia)).
  destruct (throttle_at (t_data i)) as [th|e]; [|discriminate].
  apply andb_true_iff in Hall as [Hall H15].
  apply andb_true_iff in Hall as [Hall H5].
  apply andb_true_iff in Hall as [H0 H05].
  apply Bool.eqb_prop in H5, H15.
  exists th; repeat split; assumption.
Qed.

Lemma throttle_at_returns (t_i : pyfloat) : exists th, throttle_at t_i = Ok th.
Proof.
  destruct t_i as [[|] f]; vm_compute;
    repeat match goal with
           | |- context [if ?b then _ else _] => destruct b
           end; eexists; reflexivity.
Qed.

Lemma angle_returns (pos : pyfloat) : exists al, angle pos = Ok al.
Proof.
  destruct pos as [[|] f]; vm_compute;
    repeat match goal with
           | |- context [if ?b then _ else _] => destruct b
           end; eexists; reflexivity.
Qed.

Lemma ramp_loop_returns (n : nat) :
  forall (i : nat) (model : t pyfloat),
    same_parameters model __init__ ->
    (v model = py_lit 5 /\ w_e model = py_lit 100) \/
    (kind_of (v model) = NpScalar /\ kind_of (w_e model) = NpScalar) ->
    exists model' rows,
      ramp_loop n i model = (model', Ok rows) /\
      length rows = n /\ same_parameters model' __init__.
Proof.
  induction n as [|n IH]; intros i model Hp Hs; cbn [ramp_loop].
  - exists model, []; split; [reflexivity | split; [reflexivity | exact Hp]].
  - destruct (throttle_at_returns (t_data i)) as [th ->].
    destruct (angle_returns (x model)) as [al ->].
    cbv zeta.
    pose proof (step_returns _ model (np_item th) (np_item al) Hp Hs) as Hret.
    destruct (step_snd_Ok _ _ _ _ Hret) as [l E].
    destruct (step_leaves_numpy _ _ _ _ _ _ E) as (_ & Hkv & _ & Hkw & _).
    pose proof (step_parameters model (np_item th) (np_item al)) as Hp1.
    destruct (step model (np_item th) (np_item al)) as [model1 r1];
      cbn [fst snd] in *; subst r1.
    assert (Hp' : same_parameters model1 __init__).
    { eapply same_parameters_trans; [|exact Hp].
      apply same_parameters_sym; exact Hp1. }
    destruct (IH (S i) model1 Hp' (or_intror (conj Hkv Hkw)))
      as (model' & rows & -> & Hlen & Hp'').
    eexists; eexists; split; [reflexivity|].
    split; [cbn; lia | exact Hp''].
Qed.

(** X14. The ramp cell runs to its end for every number of iterations and
    whatever the C library returns for the sine and the arctangent: from
    any object with the parameters of [__init__] it raises nothing, records
    one row per iteration and leaves the parameters as they were. *)
Theorem ramp_cell_completes (n : nat) (model : t pyfloat) :
  same_parameters model __init__ ->
  exists model' rows,
    ramp_cell n model = (model', Ok rows) /\
    length rows = n /\ same_parameters model' __init__.
Proof.
  intros Hp; unfold ramp_cell; apply ramp_loop_returns.
  - eapply same_parameters_trans; [|exact Hp].
    apply same_parameters_sym, reset_parameters.
  - left; split; reflexivity.
Qed.

End Binary64Further.

(** ** The further properties at concrete states *)


Lemma drive_records_witness :
  let num := pyfloat_num libm_absent in
  exists model' v_data,
    drive 3 __init__ (py_lit 0.4) (py_lit 0) = (model', Ok v_data) /\
    length v_data = 3%nat /\
    model' = steps __init__ (repeat (py_lit 0.4, py_lit 0) 3).
Proof.
  intros num; cbv zeta.
  eassert (E : @drive pyfloat num 3 __init__
                 (py_lit 0.4) (py_lit 0) = (_, Ok _))
    by (vm_compute; reflexivity).
  eexists; eexists; split; [exact E|].
  destruct (drive_records _ _ _ _ _ _ E) as (Hlen & Hm & _).
  split; assumption.
Defined.

Lemma throttle_acts_next_call_witness :
  let num := pyfloat_num libm_absent in
  exists s1 s2 l1 l2,
    step_locals __init__ (py_lit 0.4) (py_lit 0) = (s1, Ok l1) /\
    step_locals __init__ (py_lit 0) (py_lit 0) = (s2, Ok l2) /\
    a s1 = a s2 /\ v s1 = v s2 /\ x s1 = x s2.
Proof.
  intros num; cbv zeta.
  eassert (E1 : @step_locals pyfloat num __init__
                  (py_lit 0.4) (py_lit 0) = (_, Ok _))
    by (vm_compute; reflexivity).
  eassert (E2 : @step_locals pyfloat num __init__
                  (py_lit 0) (py_lit 0) = (_, Ok _))
    by (vm_compute; reflexivity).
  do 4 eexists; split; [exact E1|]; split; [exact E2|].
  destruct (throttle_acts_next_call _ _ _ _ _ _ _ _ E1 E2)
    as (_ & _ & _ & Ha & Hv & Hx).
  repeat split; assumption.
Defined.

Lemma tire_force_regimes_witness :
  let self := @__init__ R R_num in
  (0 < v self)%R /\ J_e self <> 0%R /\ m self <> 0%R /\
  exists self' l,
    step_locals self (py_lit 0.4) (py_lit 0) = (self', Ok l) /\
    (GR self * w_e self * r_e self <= 0 \/
     2 * v self <= GR self * w_e self * r_e self -> F_x l = F_max self)%R.
Proof.
  cbv zeta.
  assert (Hv : (0 < v (@__init__ R R_num))%R) by (cbn; unfold Q2R; cbn; lra).
  assert (HJ : J_e (@__init__ R R_num) <> 0%R) by (cbn; unfold Q2R; cbn; lra).
  assert (Hm : m (@__init__ R R_num) <> 0%R) by (cbn; unfold Q2R; cbn; lra).
  repeat (split; [assumption|]).
  destruct (tire_force_regimes __init__ (py_lit 0.4) (py_lit 0) Hv HJ Hm)
    as (self' & l & E & _ & _ & Hsat).
  exists self', l; split; assumption.
Defined.

Lemma step_acceleration_bounds_witness :
  let self := @__init__ R R_num in
  same_parameters self __init__ /\ (0 < v self)%R /\ (0 <= sin (py_lit 0))%R /\
  exists self' l,
    step_locals self (py_lit 0.4) (py_lit 0) = (self', Ok l) /\
    (a self' <= 5)%R /\ (v self' <= v self + 0.05)%R.
Proof.
  cbv zeta.
  assert (Hp : same_parameters (@__init__ R R_num) __init__)
    by apply same_parameters_refl.
  assert (Hv : (0 < v (@__init__ R R_num))%R) by (cbn; unfold Q2R; cbn; lra).
  assert (Hs : (0 <= sin (@py_lit R R_num 0))%R)
    by (cbn; rewrite Q2R_0, sin_0; lra).
  repeat (split; [assumption|]).
  destruct (step_acceleration_bounds __init__ (py_lit 0.4) (py_lit 0) Hp Hv Hs)
    as (self' & l & E & _ & _ & [_ Ha] & Hv').
  exists self', l; repeat split; assumption.
Defined.

Lemma step_balance_witness :
  let self := @__init__ R R_num in
  v self <> 0%R /\ J_e self <> 0%R /\ m self <> 0%R /\
  sample_time self <> 0%R /\
  exists self' l,
    step_locals self (py_lit 0.4) (py_lit 0) = (self', Ok l) /\
    (v self' = v self <-> F_x l = F_load l).
Proof.
  cbv zeta.
  assert (Hv : v (@__init__ R R_num) <> 0%R) by (cbn; unfold Q2R; cbn; lra).
  assert (HJ : J_e (@__init__ R R_num) <> 0%R) by (cbn; unfold Q2R; cbn; lra).
  assert (Hm : m (@__init__ R R_num) <> 0%R) by (cbn; unfold Q2R; cbn; lra).
  assert (Hdt : sample_time (@__init__ R R_num) <> 0%R)
    by (cbn; unfold Q2R; cbn; lra).
  repeat (split; [assumption|]).
  destruct (step_balance __init__ (py_lit 0.4) (py_lit 0) Hv HJ Hm Hdt)
    as (self' & l & E & Hbal & _).
  exists self', l; split; assumption.
Defined.

Lemma nan_velocity_absorbing_witness :
  let num := pyfloat_num libm_absent in
  let self :=
    set_v (fst (step __init__ (py_lit 0.4) (py_lit 0)))
          (mk_pyfloat NpScalar PrimFloat.nan) in
  PrimFloat.is_nan (val (v self)) = true /\
  exists self' l,
    step_locals self (py_lit 0.4) (py_lit 0) = (self', Ok l) /\
    F_x l = F_max self /\
    PrimFloat.is_nan (val (x self')) = true /\
    PrimFloat.is_nan (val (v self')) = true.
Proof.
  intros num; cbv zeta.
  match goal with |- PrimFloat.is_nan (val (v ?st)) = true /\ _ =>
    set (self := st) end.
  assert (Hn : PrimFloat.is_nan (val (v self)) = true)
    by (vm_compute; reflexivity).
  split; [exact Hn|].
  eassert (E : @step_locals pyfloat num self
                 (py_lit 0.4) (py_lit 0) = (_, Ok _))
    by (vm_compute; reflexivity).
  eexists; eexists; split; [exact E|].
  destruct (proj1 (nan_velocity_absorbing libm_absent) _ _ _ _ _ E Hn)
    as (HF & Hx & Hv & _).
  repeat split; assumption.
Defined.

Lemma nan_engine_speed_saturates_witness :
  let num := pyfloat_num libm_absent in
  let self := set_w_e __init__ (mk_pyfloat NpScalar PrimFloat.nan) in
  PrimFloat.is_nan (val (w_e self)) = true /\
  exists self' l,
    step_locals self (py_lit 0.4) (py_lit 0) = (self', Ok l) /\
    F_x l = F_max self /\
    PrimFloat.is_nan (val (w_e self')) = true.
Proof.
  intros num; cbv zeta.
  match goal with |- PrimFloat.is_nan (val (w_e ?st)) = true /\ _ =>
    set (self := st) end.
  assert (Hn : PrimFloat.is_nan (val (w_e self)) = true)
    by (vm_compute; reflexivity).
  split; [exact Hn|].
  eassert (E : @step_locals pyfloat num self
                 (py_lit 0.4) (py_lit 0) = (_, Ok _))
    by (vm_compute; reflexivity).
  eexists; eexists; split; [exact E|].
  destruct (nan_engine_speed_saturates libm_absent _ _ _ _ _ E Hn)
    as (HF & _ & Hw & _).
  split; assumption.
Defined.

Lemma angle_of_nan_position_witness :
  let num := pyfloat_num libm_absent in
  let np := pyfloat_numpy libm_absent in
  let pos := mk_pyfloat NpScalar PrimFloat.nan in
  PrimFloat.is_nan (val pos) = true /\ angle pos = Ok (py_lit 0).
Proof.
  intros num np; cbv zeta.
  assert (Hn : PrimFloat.is_nan (val (mk_pyfloat NpScalar PrimFloat.nan)) = true)
    by (vm_compute; reflexivity).
  split; [exact Hn|].
  exact (angle_of_nan_position libm_absent libm_absent _ Hn).
Defined.

Lemma throttle_on_the_grid_witness :
  let num := pyfloat_num libm_absent in
  let np := pyfloat_numpy libm_absent in
  (500 < 2000)%nat /\
  exists th,
    throttle_at (t_data 500) = Ok th /\
    py_lt (t_data 500) (py_lit 5) = Nat.ltb 500 500.
Proof.
  intros num np; cbv zeta.
  assert (Hi : (500 < 2000)%nat) by lia.
  split; [exact Hi|].
  destruct (throttle_on_the_grid libm_absent libm_absent 500 Hi)
    as (th & E & _ & _ & H5 & _).
  exists th; split; assumption.
Defined.

Lemma ramp_cell_completes_witness :
  let num := pyfloat_num libm_absent in
  let np := pyfloat_numpy libm_absent in
  same_parameters (@__init__ pyfloat num) __init__ /\
  exists model' rows,
    ramp_cell 3 __init__ = (model', Ok rows) /\ length rows = 3%nat.
Proof.
  intros num np; cbv zeta.
  assert (Hp : same_parameters (@__init__ pyfloat num)
                 __init__) by apply same_parameters_refl.
  split; [exact Hp|].
  destruct (ramp_cell_completes libm_absent libm_absent 3 __init__ Hp)
    as (model' & rows & E & Hlen & _).
  exists model', rows; split; assumption.
Defined.

(** A steady state in exact arithmetic: coasting at 1 m/s with the wheel
    rolling without slip, on the descent whose gravity term cancels drag and
    rolling resistance. *)
Lemma steady_state_stays_witness :
  let self :=
    set_w_e (set_v (@__init__ R R_num) 1%R) (1 / (Q2R 0.35 * Q2R 0.3))%R in
  let throttle := @py_lit R R_num 0 in
  let alpha := asin (- (Q2R 1.36 + Q2R 0.01) / (Q2R 2000 * Q2R 9.81))%R in
  v (fst (step self throttle alpha)) = v self /\
  w_e (fst (step self throttle alpha)) = w_e self /\
  v (steps self (repeat (throttle, alpha) 3)) = v self /\
  w_e (steps self (repeat (throttle, alpha) 3)) = w_e self.
Proof.
  intros self throttle alpha.
  assert (Hv0 : v self <> 0%R) by (cbn; lra).
  assert (HJ : J_e self <> 0%R) by (cbn; unfold Q2R; cbn; lra).
  assert (Hm : m self <> 0%R) by (cbn; unfold Q2R; cbn; lra).
  pose proof (R_step_locals self throttle alpha Hv0 HJ Hm) as E.
  cbv zeta in E.
  cbn [self set_w_e set_v __init__ a_0 a_1 a_2 GR r_e J_e m g c_a c_r1 c F_max
       x v a w_e w_e_dot sample_time] in E.
  assert (Hsin : sin alpha = (- (Q2R 1.36 + Q2R 0.01) / (Q2R 2000 * Q2R 9.81))%R).
  { unfold alpha; apply sin_asin; unfold Q2R; cbn; lra. }
  assert (Hth : throttle = 0%R) by (unfold throttle; cbn; apply Q2R_0).
  assert (HFl : (py_lit 1.36 * (1 * 1) + py_lit 0.01 * 1
                 + py_lit 2000 * py_lit 9.81 * sin alpha = 0)%R).
  { rewrite Hsin; cbn; unfold Q2R; cbn; field. }
  assert (Hsl : ((py_lit 0.35 * (1 / (Q2R 0.35 * Q2R 0.3)) * py_lit 0.3 - 1) / 1
                 = 0)%R).
  { cbn; unfold Q2R; cbn; field. }
  rewrite HFl, Hsl, Hth in E.
  rewrite Rabs_R0, (Rltb_true 0 1) in E by lra.
  assert (Hv : v (fst (step self throttle alpha)) = v self).
  { rewrite step_fst, Hth, E; cbn; field; unfold Q2R; cbn; lra. }
  assert (Hw : w_e (fst (step self throttle alpha)) = w_e self).
  { rewrite step_fst, Hth, E; cbn; field; unfold Q2R; cbn; lra. }
  split; [exact Hv|]; split; [exact Hw|].
  exact (steady_state_stays self throttle alpha 3 Hv Hw).
Defined.
